(** * FACT Memory: the server launcher and the server package initializer

    A shallow embedding of

    - [fact-memory/src/run_server.py]: the launcher script, which looks
      for [server/hello_mcp_server.py] next to itself and runs it with the
      interpreter that runs the launcher, forwarding [sys.argv[1:]];
    - [fact-memory/src/server/__init__.py]: the package initializer.

    Both files are straight-line Python with effects (printing, spawning a
    process, raising, binding module names).  The effects are modelled by a
    state-and-exception monad; what the operating system and the Python
    runtime answer is read from a record of oracles (the [World]). *)

From Stdlib Require Import ZArith List Ascii String Lia.
From stdpp Require Import gmap strings pretty.
Import ListNotations.

Local Open Scope Z_scope.

(** ** Python runtime: exceptions and the execution monad *)

Module Py.

(** The exceptions that reach the two modelled files.  [CalledProcessError]
    carries [returncode] and [cmd] as in [subprocess]; [OSError] carries
    its [errno]; [UnicodeEncodeError] is what a stream raises for a text
    its encoding cannot take; [ModuleNotFoundError] is a subclass of
    [ImportError]. *)
Inductive exn : Type :=
| SystemExit (code : Z)
| KeyboardInterrupt
| CalledProcessError (returncode : Z) (cmd : list string)
| OSError (errno : Z)
| ValueError (msg : string)
| TypeError (msg : string)
| UnicodeEncodeError (text : string)
| ImportError (name : string) (from : string)
| ModuleNotFoundError (name : string).

Inductive result (A : Type) : Type :=
| Ret (a : A)
| Raise (e : exn).
Arguments Ret {A} a.
Arguments Raise {A} e.

(** A computation threads a state [S] and either returns or raises. *)
Definition M (S A : Type) : Type := S -> S * result A.

Definition ret {S A} (a : A) : M S A := fun s => (s, Ret a).

Definition raise {S A} (e : exn) : M S A := fun s => (s, Raise e).

Definition bind {S A B} (m : M S A) (k : A -> M S B) : M S B :=
  fun s =>
    match m s with
    | (s', Ret a) => k a s'
    | (s', Raise e) => (s', Raise e)
    end.

(** [try: body except ...: handler].  The [except] clauses are a partial
    function on exceptions: [None] means no clause matches and the
    exception propagates.  An exception raised by a handler is not
    offered to the sibling clauses. *)
Definition try_except {S A} (body : M S A) (clauses : exn -> option (M S A))
  : M S A :=
  fun s =>
    match body s with
    | (s', Ret a) => (s', Ret a)
    | (s', Raise e) =>
        match clauses e with
        | Some handler => handler s'
        | None => (s', Raise e)
        end
    end.

(** [sys.exit(code)] *)
Definition sys_exit {S A} (code : Z) : M S A := raise (SystemExit code).

(** [issubclass(type(e), ImportError)] *)
Definition is_ImportError (e : exn) : bool :=
  match e with
  | ImportError _ _ | ModuleNotFoundError _ => true
  | _ => false
  end.

End Py.

(** The monad is registered with stdpp's classes, so that programs are
    written with [x ← m; k] and [m ;; k]. *)
#[global] Instance M_ret {S} : MRet (Py.M S) := fun A => @Py.ret S A.
#[global] Instance M_bind {S} : MBind (Py.M S) :=
  fun A B k m => @Py.bind S A B m k.

(** ** Strings: the pieces of [str] the launcher's messages go through *)

Module PyStr.

Definition LF : ascii := "010"%char.
Definition TAB : ascii := "009"%char.
Definition CR : ascii := "013"%char.
Definition DQUOTE : ascii := "034"%char.

Fixpoint contains_char (c : ascii) (s : string) : bool :=
  match s with
  | EmptyString => false
  | String d r => if Ascii.eqb c d then true else contains_char c r
  end.

(** [sep.join(parts)] *)
Fixpoint join (sep : string) (parts : list string) : string :=
  match parts with
  | [] => EmptyString
  | [x] => x
  | x :: rest => x +:+ sep +:+ join sep rest
  end.

(** [s.split(sep)] for a one-character separator: never the empty list,
    splitting the empty string gives one empty piece. *)
Fixpoint split (sep : ascii) (s : string) : list string :=
  match s with
  | EmptyString => [EmptyString]
  | String c r =>
      if Ascii.eqb c sep then EmptyString :: split sep r
      else match split sep r with
           | x :: xs => String c x :: xs
           | [] => [String c EmptyString]
           end
  end.

Definition hex_digit (n : N) : ascii :=
  match n with
  | 0 => "0" | 1 => "1" | 2 => "2" | 3 => "3" | 4 => "4" | 5 => "5"
  | 6 => "6" | 7 => "7" | 8 => "8" | 9 => "9" | 10 => "a" | 11 => "b"
  | 12 => "c" | 13 => "d" | 14 => "e" | _ => "f"
  end%N%char.

(** One character of [repr(s)] for a [str], with [q] the chosen quote. *)
Definition repr_char (q : ascii) (c : ascii) : string :=
  if Ascii.eqb c q || Ascii.eqb c "\"%char then String "\" (String c EmptyString)
  else if Ascii.eqb c TAB then "\t"
  else if Ascii.eqb c LF then "\n"
  else if Ascii.eqb c CR then "\r"
  else
    let n := N_of_ascii c in
    if (n <? 32)%N || (n =? 127)%N
    then String "\" (String "x" (String (hex_digit (n / 16))
                                   (String (hex_digit (n mod 16)) EmptyString)))
    else String c EmptyString.

Fixpoint repr_body (q : ascii) (s : string) : string :=
  match s with
  | EmptyString => EmptyString
  | String c r => repr_char q c +:+ repr_body q r
  end.

(** Whether every character of [s] is an ASCII character. *)
Fixpoint is_ascii (s : string) : bool :=
  match s with
  | EmptyString => true
  | String c r => (N_of_ascii c <? 128)%N && is_ascii r
  end.

(** [repr(s)].  For an ASCII string: single quotes, unless the string has
    a single quote and no double quote, with the escapes of [repr_char].
    For a string with characters beyond ASCII, which Python escapes or
    keeps by its table of printable characters, the text is the one the
    interpreter gives, [beyond_ascii s]. *)
Definition repr (beyond_ascii : string -> string) (s : string) : string :=
  if is_ascii s then
    let q := if contains_char "'" s && negb (contains_char DQUOTE s)
             then DQUOTE else "'"%char in
    String q (repr_body q s +:+ String q EmptyString)
  else beyond_ascii s.

(** [str(l)] for a list of [str]. *)
Definition str_list (beyond_ascii : string -> string) (l : list string)
  : string :=
  "[" +:+ join ", " (map (repr beyond_ascii) l) +:+ "]".

(** ["%d" % n] *)
Definition str_int (n : Z) : string := pretty n.

End PyStr.

(** ** [pathlib]: pure POSIX paths *)

Module Pathlib.

(** A parsed path: the root (empty, one slash or two slashes) and the
    components after it. *)
Record Path : Type := mkPath { root : string; tail : list string }.

(** [posixpath.splitroot], without the drive (always empty on POSIX):
    a path that starts with exactly two slashes keeps both as its root. *)
Definition splitroot (p : string) : string * string :=
  match p with
  | EmptyString => (EmptyString, p)
  | String c0 r1 =>
      if negb (Ascii.eqb c0 "/") then (EmptyString, p)
      else match r1 with
           | String "/" (String "/" _) => ("/", r1)
           | String "/" r2 => ("//", r2)
           | _ => ("/", r1)
           end
  end.

(** Empty components and single dots are dropped when a path is parsed. *)
Definition keep_part (x : string) : bool :=
  negb (String.eqb x EmptyString) && negb (String.eqb x ".").

(** [Path(s)] *)
Definition parse (s : string) : Path :=
  let '(rt, rel) := splitroot s in
  mkPath rt (List.filter keep_part (PyStr.split "/" rel)).

(** [str(p)]: the empty relative path prints as a dot. *)
Definition str (p : Path) : string :=
  let s := root p +:+ PyStr.join "/" (tail p) in
  if String.eqb s EmptyString then "." else s.

(** [p.parent]: drops the last component; a path without components is
    its own parent. *)
Definition parent (p : Path) : Path :=
  match tail p with
  | [] => p
  | _ => mkPath (root p) (removelast (tail p))
  end.

(** [p / key]: the components of [key] are appended, unless [key] is
    absolute, in which case it replaces [p]. *)
Definition truediv (p : Path) (key : string) : Path :=
  let k := parse key in
  if String.eqb (root k) EmptyString
  then mkPath (root p) (tail p ++ tail k)
  else k.

(** [p.is_absolute()] *)
Definition is_absolute (p : Path) : bool :=
  negb (String.eqb (root p) EmptyString).


(** A component a parsed path can hold: kept by the parser and free of
    slashes. *)
Definition good_part (x : string) : bool :=
  keep_part x && negb (PyStr.contains_char "/" x).

(** The shape every parsed path has. *)
Definition wf (p : Path) : bool :=
  (String.eqb (root p) EmptyString || String.eqb (root p) "/"
   || String.eqb (root p) "//")
  && forallb good_part (tail p).

End Pathlib.

Notation "p // key" := (Pathlib.truediv p key)
  (at level 40, left associativity).

(** ** [run_server.py] *)

Module RunServer.
Import Py.

(** What a run shows to the outside, in the order it happens: a text
    printed on standard output, a call of [subprocess.run], the traceback
    the interpreter writes for an exception nobody caught, and the note
    the interpreter writes when the flush of standard output at exit
    fails. *)
Inductive event : Type :=
| Print (text : string)
| SubprocessRun (cmd : list string)
| Traceback (e : exn)
| FlushFailure (errno : Z).

(** Answer of the file system to [Path.exists]: the errors [exists]
    ignores count as [Missing]; an error it lets through is raised. *)
Inductive exists_outcome : Type :=
| Present
| Missing
| ExistsError (errno : Z).

(** Where the child is when the launcher is interrupted. *)
Inductive child_state : Type :=
| StillRunning
| AlreadyExited (returncode : Z).

(** Errors of [subprocess.run] before a child runs.  The [TypeError] is
    the one for a command that is not made of strings, as when
    [sys.executable] is [None]. *)
Inductive spawn_error : Type :=
| SpawnOSError (errno : Z)
| SpawnValueError (msg : string)
| SpawnTypeError (msg : string).

(** What happens while [subprocess.run] spawns the child and waits. *)
Inductive run_outcome : Type :=
| Terminated (returncode : Z)
| Interrupted (child : child_state)
| SpawnFailed (e : spawn_error).

(** Errors [print] raises before any of the text is in the buffer of the
    stream: the encoding of the stream cannot take the text, a stream
    without buffer refuses the write, or the stream object is closed. *)
Inductive print_error : Type :=
| EncodeError
| WriteError (errno : Z)
| ClosedFile.

(** What [sys.stdout] does with a text given to [print]:
    - [Written]: the text is on the stream when [print] returns;
    - [Buffered]: the text stays in the buffer and is written by the flush
      at exit, which can fail;
    - [Ignored]: [sys.stdout] is [None], [print] returns and does nothing;
    - [Fails e]: [print] raises and nothing of the text is shown. *)
Inductive print_outcome : Type :=
| Written
| Buffered
| Ignored
| Fails (e : print_error).

(** Everything the launcher reads from its environment.  The file
    system and the child are asked relative to the working directory.
    [file__] is the text the interpreter gives as [__file__]: for a
    launch with a relative path it is relative to [cwd].  [exit_flush]
    is the error of the flush of standard output at exit, if it fails
    when there is text to write.  [sys_executable] is a string: where the
    interpreter has [None] there, [subprocess.run] raises [TypeError], one
    of the answers of [os_run]. *)
Record World : Type := mkWorld {
  file__ : string;                                   (* [__file__] *)
  sys_executable : string;
  sys_argv : list string;
  cwd : string;
  fs_exists : string -> string -> exists_outcome;    (* cwd, path *)
  os_run : string -> list string -> run_outcome;     (* cwd, command *)
  signal_name : Z -> option string;                  (* [signal.Signals] *)
  stdout_print : string -> print_outcome;            (* [sys.stdout] *)
  exit_flush : option Z;
  unicode_repr : string -> string                    (* [repr], non-ASCII *)
}.

Definition with_cwd (w : World) (d : string) : World :=
  mkWorld (file__ w) (sys_executable w) (sys_argv w) d
          (fs_exists w) (os_run w) (signal_name w)
          (stdout_print w) (exit_flush w) (unicode_repr w).

Abbreviation IO := (M (list event)).

Definition emit (e : event) : IO unit := fun tr => (tr ++ [e], Ret tt).

(** The exception [print] raises for an error of the stream. *)
Definition exn_of_print_error (text : string) (e : print_error) : exn :=
  match e with
  | EncodeError => UnicodeEncodeError text
  | WriteError n => OSError n
  | ClosedFile => ValueError "I/O operation on closed file."
  end.

(** [print(text)].  A text the stream took is recorded when [print]
    returns; whether a buffered one reaches the outside is settled at
    exit. *)
Definition print (w : World) (text : string) : IO unit :=
  match stdout_print w text with
  | Written => emit (Print text)
  | Buffered => emit (Print text)
  | Ignored => ret tt
  | Fails e => raise (exn_of_print_error text e)
  end.

(** [p.exists()] *)
Definition path_exists (w : World) (p : Pathlib.Path) : IO bool :=
  match fs_exists w (cwd w) (Pathlib.str p) with
  | Present => ret true
  | Missing => ret false
  | ExistsError n => raise (OSError n)
  end.

(** The exception [subprocess.run] raises for an error before the child
    runs. *)
Definition exn_of_spawn_error (e : spawn_error) : exn :=
  match e with
  | SpawnOSError n => OSError n
  | SpawnValueError m => ValueError m
  | SpawnTypeError m => TypeError m
  end.

Record CompletedProcess : Type :=
  mkCompleted { args : list string; returncode : Z }.

(** [subprocess.run(cmd, check=check)]: with [check], a non-zero return
    code raises [CalledProcessError]. *)
Definition subprocess_run (w : World) (cmd : list string) (check : bool)
  : IO CompletedProcess :=
  emit (SubprocessRun cmd) ;;
  match os_run w (cwd w) cmd with
  | Terminated rc =>
      if check && negb (rc =? 0)
      then raise (CalledProcessError rc cmd)
      else ret (mkCompleted cmd rc)
  | Interrupted _ => raise KeyboardInterrupt
  | SpawnFailed e => raise (exn_of_spawn_error e)
  end.

(** [str(e)] for [e = CalledProcessError(rc, cmd)] *)
Definition str_CalledProcessError (w : World) (rc : Z) (cmd : list string)
  : string :=
  if rc <? 0 then
    match signal_name w (- rc) with
    | Some nm =>
        "Command '" +:+ PyStr.str_list (unicode_repr w) cmd
          +:+ "' died with <Signals."
          +:+ nm +:+ ": " +:+ PyStr.str_int (- rc) +:+ ">."
    | None =>
        "Command '" +:+ PyStr.str_list (unicode_repr w) cmd
          +:+ "' died with unknown signal " +:+ PyStr.str_int (- rc) +:+ "."
    end
  else
    "Command '" +:+ PyStr.str_list (unicode_repr w) cmd
      +:+ "' returned non-zero exit status " +:+ PyStr.str_int rc +:+ ".".

(** [Path(__file__).parent / "server" / "hello_mcp_server.py"] *)
Definition server_script (w : World) : Pathlib.Path :=
  let src_dir := Pathlib.parent (Pathlib.parse (file__ w)) in
  src_dir // "server" // "hello_mcp_server.py".

(** [[sys.executable, str(server_script)] + sys.argv[1:]] *)
Definition command (w : World) : list string :=
  [sys_executable w; Pathlib.str (server_script w)] ++ skipn 1 (sys_argv w).

(** What the file system and the child answer in [w]. *)
Definition script_lookup (w : World) : exists_outcome :=
  fs_exists w (cwd w) (Pathlib.str (server_script w)).

Definition child_outcome (w : World) : run_outcome :=
  os_run w (cwd w) (command w).

Definition not_found_message (w : World) : string :=
  "Error: Server script not found at " +:+ Pathlib.str (server_script w).

Definition run_error_message (w : World) (rc : Z) (cmd : list string)
  : string :=
  "Error running server: " +:+ str_CalledProcessError w rc cmd.

Definition stopped_message : string :=
  String PyStr.LF "Server stopped by user".

(** The two [except] clauses of [main]. *)
Definition except_clauses (w : World) (e : exn) : option (IO unit) :=
  match e with
  | CalledProcessError rc c =>
      Some (print w (run_error_message w rc c) ;; sys_exit rc)
  | KeyboardInterrupt =>
      Some (print w stopped_message ;; sys_exit 0)
  | _ => None
  end.

Definition main (w : World) : IO unit :=
  let server_script := server_script w in
  found ← path_exists w server_script;
  (if negb found
   then print w (not_found_message w) ;; sys_exit 1
   else ret tt) ;;
  let cmd := command w in
  try_except
    (subprocess_run w cmd true ;; ret tt)
    (except_clauses w).

(** The module body: [main()] is called when the file is run as a
    script. *)
Definition module_body (name__ : string) (w : World) : IO unit :=
  if String.eqb name__ "__main__" then main w else ret tt.

(** The exit status the parent of the process reads for the code given to
    [sys.exit]: its low eight bits (POSIX; for a code that fits a C int, as
    every return code of a child does). *)
Definition narrow (code : Z) : Z := code mod 256.

(** Whether the event is a printed text that is still in the buffer of
    standard output when the process exits. *)
Definition in_buffer (w : World) (e : event) : bool :=
  match e with
  | Print text =>
      match stdout_print w text with
      | Buffered => true
      | _ => false
      end
  | _ => false
  end.

(** The interpreter around the module body.  The status is 0 after a
    normal end, the narrowed code after [sys.exit]; any other exception
    gets a traceback and status 1 (an interrupt nobody caught ends the
    process by the interrupt signal, which a shell reports as 130).  Then
    standard output is flushed: when that fails with text in the buffer,
    the text is lost, the interpreter writes a note, and the status is
    120 whatever it was. *)
Definition interpreter (w : World) (body : IO unit) : list event * Z :=
  let '(tr, status) :=
    match body [] with
    | (tr, Ret _) => (tr, 0)
    | (tr, Raise (SystemExit code)) => (tr, narrow code)
    | (tr, Raise KeyboardInterrupt) =>
        (tr ++ [Traceback KeyboardInterrupt], 130)
    | (tr, Raise e) => (tr ++ [Traceback e], 1)
    end in
  match exit_flush w with
  | Some n =>
      if existsb (in_buffer w) tr
      then (List.filter (fun e => negb (in_buffer w e)) tr ++ [FlushFailure n],
            120)
      else (tr, status)
  | None => (tr, status)
  end.

(** Running [python run_server.py ...] in world [w]. *)
Definition launcher (w : World) : list event * Z :=
  interpreter w (module_body "__main__" w).

Definition output (w : World) : list event := fst (launcher w).
Definition exit_status (w : World) : Z := snd (launcher w).

Definition is_diagnostic (e : event) : bool :=
  match e with
  | Print _ | Traceback _ | FlushFailure _ => true
  | SubprocessRun _ => false
  end.

Definition is_spawn (e : event) : bool :=
  match e with
  | SubprocessRun _ => true
  | _ => false
  end.

(** Whether a text given to [print] reaches the outside: written at once,
    or buffered and flushed at exit without error. *)
Definition stdout_shows (w : World) (text : string) : bool :=
  match stdout_print w text with
  | Written => true
  | Buffered =>
      match exit_flush w with
      | None => true
      | Some _ => false
      end
  | _ => false
  end.

(** How a run ends that has [before] behind it, prints [text] and calls
    [sys.exit(code)]. *)
Definition report_and_exit (w : World) (before : list event) (text : string)
           (code : Z) : list event * Z :=
  match stdout_print w text with
  | Written => (before ++ [Print text], narrow code)
  | Buffered =>
      match exit_flush w with
      | None => (before ++ [Print text], narrow code)
      | Some n => (before ++ [FlushFailure n], 120)
      end
  | Ignored => (before, narrow code)
  | Fails e => (before ++ [Traceback (exn_of_print_error text e)], 1)
  end.



(** Worlds for examples: the launcher is installed under [/opt/fact/src]
    and called with two arguments from a home directory; the answers of
    the file system, of the child and of standard output are given. *)
Definition sample_world_with (out : print_outcome) (flush : option Z)
           (found : exists_outcome) (child : run_outcome) : World :=
  mkWorld "/opt/fact/src/run_server.py" "/usr/bin/python3"
          ["/opt/fact/src/run_server.py"; "--port"; "8080"] "/home/user"
          (fun _ _ => found) (fun _ _ => child)
          (fun n => if n =? 9 then Some "SIGKILL" else None)
          (fun _ => out) flush (fun s => s).

(** The same with a standard output that writes every text at once. *)
Definition sample_world (found : exists_outcome) (child : run_outcome)
  : World :=
  sample_world_with Written None found child.


End RunServer.

(** ** [server/__init__.py] *)

Module ServerInit.
Import Py.

(** The objects a module namespace of this package holds. *)
Inductive pyobj : Type :=
| PyStr (s : string)
| PyStrList (l : list string)
| PyClass (qualname : string)
| PyModule (name : string).

(** The three names the package body binds after its import statement. *)
Definition late_names : list string :=
  ["HelloWorldMCPServer"; "__all__"; "__version__"].

Definition is_module_name (n : string) : bool :=
  negb (existsb (String.eqb n) late_names).

(** The sibling modules of the package that a module imports while its
    body runs: the import machinery binds each of them in the package
    under its name.  No module of the package is taken to be named like
    one of the [late_names]. *)
Record siblings : Type := mkSiblings {
  sibling_modules : list string;
  siblings_named : forallb is_module_name sibling_modules = true
}.

Definition no_siblings : siblings := mkSiblings [] eq_refl.

(** What importing a module by its full name gives: no such module, an
    exception out of its body, or its namespace; in the last two cases
    with the siblings it imported on the way. *)
Inductive module_load : Type :=
| NoSuchModule
| BodyRaises (e : exn) (imported : siblings)
| Loaded (ns : gmap string pyobj) (imported : siblings).

Abbreviation Exec := (M (gmap string pyobj)).

(** [name = v] at module level *)
Definition assign (name : string) (v : pyobj) : Exec unit :=
  fun ns => (<[name := v]> ns, Ret tt).

(** The bindings the import machinery makes in package [pkg] for the
    sibling modules [names], the first of the list first. *)
Definition bind_modules (pkg : string) (names : list string) : Exec unit :=
  fun ns =>
    (fold_left (fun acc n => <[n := PyModule (pkg +:+ "." +:+ n)]> acc)
               names ns,
     Ret tt).

(** [from .sub import name], executed in the package named [pkg] (its
    name is not empty).  The siblings the submodule imports are bound in
    the package while its body runs; the submodule itself is bound when
    its body is done, before the name is looked up in it. *)
Definition from_import (find : string -> module_load)
           (pkg sub name : string) : Exec unit :=
  let full := pkg +:+ "." +:+ sub in
  match find full with
  | NoSuchModule => raise (ModuleNotFoundError full)
  | BodyRaises e imported =>
      bind_modules pkg (sibling_modules imported) ;;
      raise e
  | Loaded m imported =>
      bind_modules pkg (sibling_modules imported) ;;
      assign sub (PyModule full) ;;
      match m !! name with
      | Some v => assign name v
      | None => raise (ImportError name full)
      end
  end.

Definition docstring : string :=
  String PyStr.LF "FACT Memory FastMCP Server Package"
    +:+ String PyStr.LF (String PyStr.LF
    "This package contains the FastMCP server implementation for the FACT Memory System.")
    +:+ String PyStr.LF EmptyString.

(** The body of [__init__.py]. *)
Definition init (find : string -> module_load) (pkg : string) : Exec unit :=
  assign "__doc__" (PyStr docstring) ;;
  from_import find pkg "hello_mcp_server" "HelloWorldMCPServer" ;;
  assign "__all__" (PyStrList ["HelloWorldMCPServer"]) ;;
  assign "__version__" (PyStr "1.0.0").

(** [import pkg]: the body runs in the namespace [ns0] the import
    machinery prepared; the module exists afterwards only if the body
    ran to its end. *)
Definition import_package (find : string -> module_load) (pkg : string)
           (ns0 : gmap string pyobj) : result (gmap string pyobj) :=
  match init find pkg ns0 with
  | (ns, Ret _) => Ret ns
  | (_, Raise e) => Raise e
  end.

(** The public name list of a module: its [__all__]. *)
Definition public_names (ns : gmap string pyobj) : option (list string) :=
  match ns !! "__all__" with
  | Some (PyStrList l) => Some l
  | _ => None
  end.

(** What [from pkg import *] binds: every name of [__all__] with the
    object the module has under it. *)
Definition star_import (ns : gmap string pyobj)
  : option (list (string * option pyobj)) :=
  match public_names ns with
  | Some l => Some (map (fun n => (n, ns !! n)) l)
  | None => None
  end.

(** An import system for examples: the package has its
    [hello_mcp_server] module, which defines the class. *)
Definition sample_finder (full : string) : module_load :=
  if String.eqb full "server.hello_mcp_server"
  then Loaded {[ "HelloWorldMCPServer" := PyClass "HelloWorldMCPServer" ]}
              no_siblings
  else NoSuchModule.


End ServerInit.


(** * Paths *)

Section Paths.
Import Pathlib.



(** Joining below a path with a plain name appends one component. *)
Lemma truediv_server (p : Path) :
  p // "server" = mkPath (root p) (tail p ++ ["server"]).
Proof. reflexivity. Qed.

Lemma truediv_hello (p : Path) :
  p // "hello_mcp_server.py"
  = mkPath (root p) (tail p ++ ["hello_mcp_server.py"]).
Proof. reflexivity. Qed.

Lemma parent_root (p : Path) : root (parent p) = root p.
Proof. unfold parent. destruct (tail p); reflexivity. Qed.



(** The root of a parsed path is empty, one slash or two slashes. *)
Lemma splitroot_root (s : string) :
  fst (splitroot s) = EmptyString
  \/ fst (splitroot s) = "/" \/ fst (splitroot s) = "//".
Proof.
  destruct s as [| c0 r1]; [left; reflexivity |].
  unfold splitroot. destruct (negb (Ascii.eqb c0 "/")); [left; reflexivity |].
  destruct r1 as [| c1 r2]; [right; left; reflexivity |].
  destruct c1 as [[] [] [] [] [] [] [] []];
    try (right; left; reflexivity).
  destruct r2 as [| c2 r3]; [right; right; reflexivity |].
  destruct c2 as [[] [] [] [] [] [] [] []];
    try (right; right; reflexivity).
  right; left; reflexivity.
Qed.

Lemma parse_root (s : string) : root (parse s) = fst (splitroot s).
Proof. unfold parse. destruct (splitroot s). reflexivity. Qed.

(** The text of an absolute path starts with a slash. *)
Lemma str_absolute (s : string) (l : list string) :
  is_absolute (mkPath (fst (splitroot s)) l) = true ->
  exists rest, str (mkPath (fst (splitroot s)) l) = String "/" rest.
Proof.
  unfold is_absolute, str. cbn [root tail].
  destruct (splitroot_root s) as [-> | [-> | ->]].
  - discriminate.
  - intros _. eexists. reflexivity.
  - intros _. eexists. reflexivity.
Qed.

End Paths.

(** * Properties of the launcher *)

Section Launcher.
Import Py RunServer.

Implicit Types (w : World) (tr : list event).

(** A print followed by [sys.exit], as [main] has it three times. *)
Lemma print_then_exit w text code tr :
  (print w text ;; sys_exit code : IO unit) tr
  = match stdout_print w text with
    | Written | Buffered => (tr ++ [Print text], Raise (SystemExit code))
    | Ignored => (tr, Raise (SystemExit code))
    | Fails e => (tr, Raise (exn_of_print_error text e))
    end.
Proof.
  unfold print, mbind, M_bind, bind.
  destruct (stdout_print w text); reflexivity.
Qed.

(** [main], one case per path through it. *)
Lemma main_paths w tr :
  main w tr =
    match script_lookup w with
    | ExistsError n => (tr, Raise (OSError n))
    | Missing => (print w (not_found_message w) ;; sys_exit 1 : IO unit) tr
    | Present =>
        let tr1 := tr ++ [SubprocessRun (command w)] in
        match child_outcome w with
        | Terminated rc =>
            if rc =? 0 then (tr1, Ret tt)
            else (print w (run_error_message w rc (command w)) ;; sys_exit rc
                  : IO unit) tr1
        | Interrupted _ =>
            (print w stopped_message ;; sys_exit 0 : IO unit) tr1
        | SpawnFailed e => (tr1, Raise (exn_of_spawn_error e))
        end
    end.
Proof.
  unfold main, script_lookup, child_outcome, path_exists, subprocess_run.
  unfold try_except, mbind, M_bind, bind, print.
  destruct (fs_exists w (cwd w) (Pathlib.str (server_script w))).
  - cbn [negb ret raise emit].
    destruct (os_run w (cwd w) (command w)) as [rc | cs | e].
    + destruct (rc =? 0); [reflexivity |]. cbn [andb negb raise except_clauses].
      unfold mbind, M_bind, bind, print.
      destruct (stdout_print w (run_error_message w rc (command w)));
        reflexivity.
    + cbn [raise except_clauses]. unfold mbind, M_bind, bind, print.
      destruct (stdout_print w stopped_message); reflexivity.
    + destruct e; reflexivity.
  - cbn [negb ret].
    destruct (stdout_print w (not_found_message w)); reflexivity.
  - reflexivity.
Qed.

(** The interpreter after a print and [sys.exit] behind [before], when
    nothing of [before] is in the buffer. *)
Lemma interpreter_report w (body : IO unit) before text code :
  existsb (in_buffer w) before = false ->
  body [] = (print w text ;; sys_exit code : IO unit) before ->
  interpreter w body = report_and_exit w before text code.
Proof.
  intros Hb Hbody. unfold interpreter, report_and_exit.
  rewrite Hbody, print_then_exit.
  assert (Hf : List.filter (fun e => negb (in_buffer w e)) before = before).
  { clear Hbody. induction before as [| x l IH]; [reflexivity |].
    cbn [existsb] in Hb. apply orb_false_iff in Hb as [Hx Hl].
    cbn [List.filter]. now rewrite Hx, (IH Hl). }
  destruct (stdout_print w text) eqn:Hp.
  - destruct (exit_flush w); [| reflexivity].
    rewrite existsb_app, Hb. cbn [existsb in_buffer]. now rewrite Hp.
  - destruct (exit_flush w); [| reflexivity].
    rewrite existsb_app, Hb. cbn [existsb in_buffer]. rewrite Hp.
    cbn [orb]. rewrite List.filter_app, Hf. cbn [List.filter in_buffer].
    rewrite Hp. cbn [negb]. now rewrite app_nil_r.
  - destruct (exit_flush w); [| reflexivity]. now rewrite Hb.
  - assert (He : exists x, exn_of_print_error text e = x
                           /\ (forall c, x <> SystemExit c)
                           /\ x <> KeyboardInterrupt).
    { eexists. split; [reflexivity |]. destruct e; split; discriminate. }
    destruct He as [x [-> [Hx1 Hx2]]].
    assert (Hr : match x with
                 | SystemExit c => (before, narrow c)
                 | KeyboardInterrupt =>
                     (before ++ [Traceback KeyboardInterrupt], 130)
                 | _ => (before ++ [Traceback x], 1)
                 end = (before ++ [Traceback x], 1)).
    { destruct x; try reflexivity; [now destruct (Hx1 code0) | now destruct Hx2]. }
    rewrite Hr. destruct (exit_flush w); [| reflexivity].
    rewrite existsb_app, Hb. reflexivity.
Qed.

(** The interpreter after a body that printed nothing. *)
Lemma interpreter_quiet w (body : IO unit) tr status :
  existsb (in_buffer w) tr = false ->
  match body [] with
  | (tr0, Ret _) => (tr0, 0)
  | (tr0, Raise (SystemExit code)) => (tr0, narrow code)
  | (tr0, Raise KeyboardInterrupt) =>
      (tr0 ++ [Traceback KeyboardInterrupt], 130)
  | (tr0, Raise e) => (tr0 ++ [Traceback e], 1)
  end = (tr, status) ->
  interpreter w body = (tr, status).
Proof.
  intros Hb H. unfold interpreter. rewrite H.
  destruct (exit_flush w); [| reflexivity]. now rewrite Hb.
Qed.

(** The whole run of the script, one case per path. *)
Lemma launcher_paths w :
  launcher w =
    match script_lookup w with
    | ExistsError n => ([Traceback (OSError n)], 1)
    | Missing => report_and_exit w [] (not_found_message w) 1
    | Present =>
        match child_outcome w with
        | Terminated rc =>
            if rc =? 0 then ([SubprocessRun (command w)], 0)
            else report_and_exit w [SubprocessRun (command w)]
                   (run_error_message w rc (command w)) rc
        | Interrupted _ =>
            report_and_exit w [SubprocessRun (command w)] stopped_message 0
        | SpawnFailed e =>
            ([SubprocessRun (command w); Traceback (exn_of_spawn_error e)], 1)
        end
    end.
Proof.
  unfold launcher, module_body.
  change (String.eqb "__main__" "__main__") with true. cbv iota.
  pose proof (main_paths w []) as Hm.
  destruct (script_lookup w) as [| | n].
  - destruct (child_outcome w) as [rc | cs | e].
    + destruct (rc =? 0).
      * apply interpreter_quiet; [reflexivity | now rewrite Hm].
      * now apply interpreter_report.
    + now apply interpreter_report.
    + apply interpreter_quiet; [reflexivity |]. rewrite Hm.
      destruct e; reflexivity.
  - now apply interpreter_report.
  - apply interpreter_quiet; [reflexivity | now rewrite Hm].
Qed.

Lemma launcher_child_ok w :
  script_lookup w = Present -> child_outcome w = Terminated 0 ->
  launcher w = ([SubprocessRun (command w)], 0).
Proof. intros H1 H2. rewrite launcher_paths, H1, H2. reflexivity. Qed.

Lemma launcher_spawn_failed w e :
  script_lookup w = Present -> child_outcome w = SpawnFailed e ->
  launcher w =
    ([SubprocessRun (command w); Traceback (exn_of_spawn_error e)], 1).
Proof. intros H1 H2. rewrite launcher_paths, H1, H2. reflexivity. Qed.

(** A text that standard output shows is printed, and the code of
    [sys.exit] is the status, narrowed. *)
Lemma report_shown w before text code :
  stdout_shows w text = true ->
  report_and_exit w before text code = (before ++ [Print text], narrow code).
Proof.
  unfold stdout_shows, report_and_exit.
  destruct (stdout_print w text); try discriminate; [reflexivity |].
  destruct (exit_flush w); [discriminate | reflexivity].
Qed.

(** Whatever standard output does, the report adds at most one event, a
    diagnostic, and no call of [subprocess.run]. *)
Lemma report_events w before text code :
  exists diag,
    fst (report_and_exit w before text code) = before ++ diag
    /\ (diag = [] \/ exists d, diag = [d] /\ is_diagnostic d = true)
    /\ List.filter is_spawn diag = [].
Proof.
  unfold report_and_exit.
  destruct (stdout_print w text); [| destruct (exit_flush w) | |];
    cbn [fst];
    first [ exists []; rewrite app_nil_r; split; [reflexivity |];
            split; [now left | reflexivity]
          | eexists [_]; split; [reflexivity |];
            split; [right; eexists; split; reflexivity | reflexivity] ].
Qed.

(** [main] catches every [KeyboardInterrupt] of [subprocess.run]. *)
Lemma main_catches_interrupt w tr : snd (main w tr) <> Raise KeyboardInterrupt.
Proof.
  rewrite main_paths.
  assert (Hp : forall text code t,
             snd ((print w text ;; sys_exit code : IO unit) t)
             <> Raise KeyboardInterrupt).
  { intros text code t. rewrite print_then_exit.
    destruct (stdout_print w text) as [| | | e]; try discriminate.
    destruct e; discriminate. }
  destruct (script_lookup w); [| apply Hp | discriminate].
  destruct (child_outcome w) as [rc | cs | e]; cbn zeta.
  - destruct (rc =? 0); [discriminate | apply Hp].
  - apply Hp.
  - destruct e; discriminate.
Qed.

(** Every call of [subprocess.run] in a run is the call with [command w]. *)
Lemma spawned_command w c :
  In (SubprocessRun c) (output w) -> c = command w.
Proof.
  unfold output. rewrite launcher_paths.
  assert (Hr : forall before text code,
             (forall x, In (SubprocessRun x) before -> x = command w) ->
             In (SubprocessRun c) (fst (report_and_exit w before text code)) ->
             c = command w).
  { intros before text code Hb.
    destruct (report_events w before text code) as [diag [-> [Hd _]]].
    rewrite in_app_iff. intros [H | H]; [now apply Hb |].
    destruct Hd as [-> | [d [-> Hd]]]; [contradiction |].
    destruct H as [H | []]. subst d. discriminate Hd. }
  assert (H1 : forall x, In (SubprocessRun x) [SubprocessRun (command w)] ->
                         x = command w).
  { intros x [[= <-] | []]. reflexivity. }
  destruct (script_lookup w).
  - destruct (child_outcome w) as [rc | cs | e]; [destruct (rc =? 0) | |].
    + exact (H1 c).
    + now apply Hr.
    + now apply Hr.
    + cbn. intros [[= <-] | [H | []]]; [reflexivity | discriminate].
  - apply Hr. intros x [].
  - intros [H | []]; discriminate.
Qed.

(** When the script is found, the call of [subprocess.run] is in the
    output. *)
Lemma spawn_in_output w :
  script_lookup w = Present -> In (SubprocessRun (command w)) (output w).
Proof.
  intros Hp. unfold output. rewrite launcher_paths, Hp.
  assert (Hr : forall text code,
             In (SubprocessRun (command w))
                (fst (report_and_exit w [SubprocessRun (command w)] text code))).
  { intros text code.
    destruct (report_events w [SubprocessRun (command w)] text code)
      as [diag [-> _]].
    left; reflexivity. }
  destruct (child_outcome w) as [rc | cs | e]; [destruct (rc =? 0) | |];
    first [ apply Hr | left; reflexivity ].
Qed.

(** ** The command *)

(** C1: for every argument vector [A] (the launcher's own arguments, after
    the program name), the command handed to [subprocess.run] is the
    running interpreter, the resolved script path, then [A] unchanged and
    in order; every child the run spawns is spawned with exactly that
    command, and when the script is found it is spawned. *)
Theorem command_forwards_arguments w prog A :
  sys_argv w = prog :: A ->
  command w = [sys_executable w; Pathlib.str (server_script w)] ++ A
  /\ (forall c, In (SubprocessRun c) (output w) ->
                c = sys_executable w :: Pathlib.str (server_script w) :: A)
  /\ (script_lookup w = Present ->
      In (SubprocessRun (sys_executable w :: Pathlib.str (server_script w) :: A))
         (output w)).
Proof.
  intros Hargv.
  assert (Hc : command w
               = sys_executable w :: Pathlib.str (server_script w) :: A).
  { unfold command. rewrite Hargv. reflexivity. }
  split; [exact Hc |]. split.
  - intros c Hin. rewrite <- Hc. now apply spawned_command.
  - intros Hp. rewrite <- Hc. now apply spawn_in_output.
Qed.

Lemma command_forwards_arguments_witness :
  let w := sample_world Present (Terminated 0) in
  sys_argv w = "/opt/fact/src/run_server.py" :: ["--port"; "8080"]
  /\ command w
     = ["/usr/bin/python3"; "/opt/fact/src/server/hello_mcp_server.py"]
         ++ ["--port"; "8080"].
Proof.
  split; [reflexivity |].
  exact (proj1 (command_forwards_arguments
                  (sample_world Present (Terminated 0))
                  "/opt/fact/src/run_server.py" ["--port"; "8080"]
                  eq_refl)).
Defined.

(** ** The exit paths *)

(** C2 fails where standard output does not take the message: with a
    buffered standard output whose flush at exit fails (a full disk,
    error 28), the script being missing, the status is 120, not 1, and no
    message comes out. *)
Lemma missing_script_unflushed :
  let w := sample_world_with Buffered (Some 28) Missing (Terminated 0) in
  script_lookup w = Missing
  /\ exit_status w = 120
  /\ output w = [FlushFailure 28]
  /\ (forall t, ~ In (Print t) (output w)).
Proof.
  repeat split. intros t [H | []]. discriminate.
Qed.

(** C2: when the script is missing at the resolved path, [subprocess.run]
    is never called; and when standard output shows the message, the
    output is the one line [Error: Server script not found at] followed
    by the resolved path, and the status is 1. *)
Theorem missing_script_exits_1 w :
  script_lookup w = Missing ->
  (forall c, ~ In (SubprocessRun c) (output w))
  /\ (stdout_shows w ("Error: Server script not found at "
                        +:+ Pathlib.str (server_script w)) = true ->
      exit_status w = 1
      /\ output w
         = [Print ("Error: Server script not found at "
                     +:+ Pathlib.str (server_script w))]).
Proof.
  intros H. split.
  - intros c Hc. apply spawned_command in Hc as Hcmd. revert Hc.
    unfold output. rewrite launcher_paths, H.
    destruct (report_events w [] (not_found_message w) 1)
      as [diag [-> [Hd _]]].
    destruct Hd as [-> | [d [-> Hd]]]; [intros [] |].
    intros [Hx | []]. subst d. discriminate Hd.
  - intros Hs. unfold exit_status, output. rewrite launcher_paths, H.
    unfold not_found_message. rewrite (report_shown w [] _ 1 Hs).
    split; reflexivity.
Qed.

Lemma missing_script_exits_1_witness :
  let w := sample_world Missing (Terminated 0) in
  script_lookup w = Missing
  /\ exit_status w = 1
  /\ output w
     = [Print "Error: Server script not found at /opt/fact/src/server/hello_mcp_server.py"].
Proof.
  split; [reflexivity |].
  exact (proj2 (missing_script_exits_1
                  (sample_world Missing (Terminated 0)) eq_refl) eq_refl).
Defined.

(** C3 fails for a child that a signal killed: its return code is -9,
    the launcher passes -9 to [sys.exit], and the status of the launcher
    is 247.  It also fails where the flush of standard output at exit
    fails: for a child that ended with 3 the message is lost and the
    status is 120. *)
Lemma child_status_not_propagated :
  (let w := sample_world Present (Terminated (-9)) in
   script_lookup w = Present
   /\ child_outcome w = Terminated (-9)
   /\ exit_status w = 247
   /\ exit_status w <> -9)
  /\ (let w := sample_world_with Buffered (Some 32) Present (Terminated 3) in
      script_lookup w = Present
      /\ child_outcome w = Terminated 3
      /\ exit_status w = 120
      /\ output w
         = [SubprocessRun ["/usr/bin/python3";
                           "/opt/fact/src/server/hello_mcp_server.py";
                           "--port"; "8080"];
            FlushFailure 32]).
Proof. repeat split. discriminate. Qed.

(** C3: when the child ends with an exit status [N] from 1 to 255 and
    standard output shows the message, the launcher prints, after the
    spawn, [Error running server: ] followed by the text of the
    [CalledProcessError], which names the command and [N], and ends with
    status [N]. *)
Theorem child_failure_status_propagates w N :
  script_lookup w = Present ->
  child_outcome w = Terminated N ->
  0 < N < 256 ->
  let msg := "Error running server: "
               +:+ "Command '" +:+ PyStr.str_list (unicode_repr w) (command w)
               +:+ "' returned non-zero exit status " +:+ PyStr.str_int N
               +:+ "." in
  stdout_shows w msg = true ->
  exit_status w = N
  /\ output w = [SubprocessRun (command w); Print msg].
Proof.
  intros H1 H2 HN msg Hs. unfold exit_status, output.
  rewrite launcher_paths, H1, H2.
  destruct (Z.eqb_spec N 0) as [-> | _]; [lia |].
  assert (Hm : run_error_message w N (command w) = msg).
  { unfold run_error_message, str_CalledProcessError.
    destruct (Z.ltb_spec N 0); [lia | reflexivity]. }
  rewrite Hm, (report_shown w _ msg N Hs). cbn [fst snd app].
  split; [| reflexivity]. unfold narrow. apply Z.mod_small. lia.
Qed.

Lemma child_failure_status_propagates_witness :
  let w := sample_world Present (Terminated 3) in
  exit_status w = 3
  /\ output w
     = [SubprocessRun ["/usr/bin/python3";
                       "/opt/fact/src/server/hello_mcp_server.py";
                       "--port"; "8080"];
        Print "Error running server: Command '['/usr/bin/python3', '/opt/fact/src/server/hello_mcp_server.py', '--port', '8080']' returned non-zero exit status 3."].
Proof.
  exact (child_failure_status_propagates
           (sample_world Present (Terminated 3)) 3
           eq_refl eq_refl ltac:(lia) eq_refl).
Defined.

(** C4 fails where the flush of standard output at exit fails (a closed
    pipe, error 32): after the interrupt the message is lost and the
    status is 120, not 0. *)
Lemma interrupt_unflushed :
  let w := sample_world_with Buffered (Some 32) Present
                             (Interrupted StillRunning) in
  script_lookup w = Present
  /\ child_outcome w = Interrupted StillRunning
  /\ exit_status w = 120
  /\ (forall t, ~ In (Print t) (output w)).
Proof.
  repeat split. intros t [H | [H | []]]; discriminate.
Qed.

(** C4: when the launcher is interrupted while it waits for the child and
    standard output shows the message, it prints an empty line and
    [Server stopped by user], and ends with status 0, whatever state the
    child is in. *)
Theorem interrupt_exits_0 w cs :
  script_lookup w = Present ->
  child_outcome w = Interrupted cs ->
  stdout_shows w (String "010" "Server stopped by user") = true ->
  exit_status w = 0
  /\ output w
     = [SubprocessRun (command w);
        Print (String "010" "Server stopped by user")].
Proof.
  intros H1 H2 Hs. unfold exit_status, output.
  rewrite launcher_paths, H1, H2.
  change stopped_message with (String "010" "Server stopped by user").
  rewrite (report_shown w _ _ 0 Hs). split; reflexivity.
Qed.

Lemma interrupt_exits_0_witness :
  let w := sample_world Present (Interrupted (AlreadyExited 7)) in
  exit_status w = 0
  /\ output w
     = [SubprocessRun (command w);
        Print (String "010" "Server stopped by user")].
Proof.
  exact (interrupt_exits_0
           (sample_world Present (Interrupted (AlreadyExited 7)))
           (AlreadyExited 7) eq_refl eq_refl eq_refl).
Defined.

(** C5: when the script is found and the child ends with status 0, the
    launcher ends with status 0 and its output holds the spawn and no
    diagnostic. *)
Theorem child_success_exits_0 w :
  script_lookup w = Present ->
  child_outcome w = Terminated 0 ->
  exit_status w = 0
  /\ output w = [SubprocessRun (command w)]
  /\ existsb is_diagnostic (output w) = false.
Proof.
  intros H1 H2. unfold exit_status, output.
  rewrite (launcher_child_ok w H1 H2). repeat split; reflexivity.
Qed.

Lemma child_success_exits_0_witness :
  let w := sample_world Present (Terminated 0) in
  exit_status w = 0
  /\ output w
     = [SubprocessRun ["/usr/bin/python3";
                       "/opt/fact/src/server/hello_mcp_server.py";
                       "--port"; "8080"]]
  /\ existsb is_diagnostic (output w) = false.
Proof.
  apply (child_success_exits_0 (sample_world Present (Terminated 0)));
    reflexivity.
Defined.




(** ** Where the script is looked for *)






(** ** Exceptions the launcher does not catch *)

(** C9: the [except] clauses match [CalledProcessError] and
    [KeyboardInterrupt] and nothing else; when [subprocess.run] fails
    before a child runs, the exception leaves [main], nothing is printed
    by the launcher, and the run ends with the interpreter's traceback
    and status 1. *)
Theorem other_exceptions_propagate w e :
  script_lookup w = Present ->
  child_outcome w = SpawnFailed e ->
  (forall x, is_Some (except_clauses w x)
             <-> x = KeyboardInterrupt
                 \/ exists rc c, x = CalledProcessError rc c)
  /\ main w [] = ([SubprocessRun (command w)], Raise (exn_of_spawn_error e))
  /\ launcher w
     = ([SubprocessRun (command w); Traceback (exn_of_spawn_error e)], 1)
  /\ (forall t, ~ In (Print t) (output w)).
Proof.
  intros H1 H2. split; [| split; [| split]].
  - intros x. split.
    + intros [k Hk]. destruct x; try discriminate; eauto.
    + intros [-> | [rc [c ->]]]; cbn; eauto.
  - rewrite main_paths, H1, H2. reflexivity.
  - now apply launcher_spawn_failed.
  - intros t. unfold output. rewrite (launcher_spawn_failed w e H1 H2).
    cbn. intros [H | [H | []]]; discriminate.
Qed.

Lemma other_exceptions_propagate_witness :
  let w := sample_world Present (SpawnFailed (SpawnOSError 13)) in
  launcher w
  = ([SubprocessRun ["/usr/bin/python3";
                     "/opt/fact/src/server/hello_mcp_server.py";
                     "--port"; "8080"];
      Traceback (OSError 13)], 1).
Proof.
  exact (proj1 (proj2 (proj2
           (other_exceptions_propagate
              (sample_world Present (SpawnFailed (SpawnOSError 13)))
              (SpawnOSError 13) eq_refl eq_refl)))).
Defined.

End Launcher.

(** * Properties of the package initializer *)

Section Package.
Import Py ServerInit.

Implicit Types (ns : gmap string pyobj) (find : string -> module_load).

(** The bindings of the sibling modules: a name of the list is bound to
    its module, every other name is left as it was. *)
Lemma bind_modules_lookup_in pkg (names : list string) ns (k : string) :
  k ∈ names ->
  fst (bind_modules pkg names ns) !! k = Some (PyModule (pkg +:+ "." +:+ k)).
Proof.
  unfold bind_modules. cbn [fst]. revert ns.
  induction names as [| n l IH]; intros ns Hk; [now apply elem_of_nil in Hk |].
  cbn [fold_left]. destruct (decide (k ∈ l)) as [Hl | Hl]; [now apply IH |].
  apply elem_of_cons in Hk as [-> | Hk]; [| contradiction].
  clear IH. revert ns. induction l as [| x l IH]; intros ns.
  - cbn. apply lookup_insert_eq.
  - cbn [fold_left]. apply not_elem_of_cons in Hl as [Hx Hl].
    rewrite insert_insert_ne by done. now apply IH.
Qed.

Lemma bind_modules_lookup_out pkg (names : list string) ns (k : string) :
  k ∉ names -> fst (bind_modules pkg names ns) !! k = ns !! k.
Proof.
  unfold bind_modules. cbn [fst]. revert ns.
  induction names as [| n l IH]; intros ns Hk; [reflexivity |].
  apply not_elem_of_cons in Hk as [Hn Hl]. cbn [fold_left].
  rewrite (IH _ Hl). now apply lookup_insert_ne.
Qed.


(** No sibling module has one of the three late names. *)
Lemma sibling_not_late (imported : siblings) (k : string) :
  In k late_names -> k ∉ sibling_modules imported.
Proof.
  intros Hk Hin. destruct imported as [names Hok]. cbn in Hin.
  rewrite forallb_forall in Hok. apply list_elem_of_In in Hin.
  specialize (Hok k Hin). unfold is_module_name in Hok.
  apply negb_true_iff in Hok.
  assert (Ht : existsb (String.eqb k) late_names = true).
  { apply existsb_exists. exists k. split; [exact Hk | apply String.eqb_refl]. }
  congruence.
Qed.

(** The namespace the body leaves when the import goes through. *)
Lemma init_loaded find pkg ns0 m imported cls :
  find (pkg +:+ "." +:+ "hello_mcp_server") = Loaded m imported ->
  m !! "HelloWorldMCPServer" = Some cls ->
  init find pkg ns0
  = (<["__version__" := PyStr "1.0.0"]>
       (<["__all__" := PyStrList ["HelloWorldMCPServer"]]>
          (<["HelloWorldMCPServer" := cls]>
             (<["hello_mcp_server" :=
                  PyModule (pkg +:+ "." +:+ "hello_mcp_server")]>
                (fst (bind_modules pkg (sibling_modules imported)
                        (<["__doc__" := PyStr docstring]> ns0)))))),
     Ret tt).
Proof.
  intros Hf Hm. unfold init, from_import, mbind, M_bind, bind, assign.
  rewrite Hf. cbn [bind_modules fst]. rewrite Hm. reflexivity.
Qed.

(** The import statement comes before the two assignments: when the body
    raises, it has bound neither [__all__] nor [__version__]. *)
Lemma init_raises_early find pkg ns0 ns e :
  init find pkg ns0 = (ns, Raise e) ->
  ns !! "__all__" = ns0 !! "__all__"
  /\ ns !! "__version__" = ns0 !! "__version__".
Proof.
  unfold init, from_import, mbind, M_bind, bind, assign, raise.
  destruct (find _) as [| e' imported | m imported].
  - intros [= <- _]. now rewrite !lookup_insert_ne.
  - cbn [bind_modules]. intros [= <- _].
    change (fold_left _ ?l ?n) with (fst (bind_modules pkg l n)).
    rewrite !bind_modules_lookup_out
      by (apply sibling_not_late; cbn; auto).
    now rewrite !lookup_insert_ne.
  - cbn [bind_modules].
    destruct (m !! "HelloWorldMCPServer"); [discriminate |].
    intros [= <- _].
    change (fold_left _ ?l ?n) with (fst (bind_modules pkg l n)).
    rewrite !lookup_insert_ne by done.
    rewrite !bind_modules_lookup_out
      by (apply sibling_not_late; cbn; auto).
    now rewrite !lookup_insert_ne.
Qed.

(** C8: when the import of the class goes through, the package namespace
    has [__all__] equal to the one-element list [HelloWorldMCPServer],
    [__version__] equal to [1.0.0], and under [HelloWorldMCPServer] the
    object of the [hello_mcp_server] module; a star import binds that one
    name and nothing else. *)
Theorem package_exports find pkg ns0 m imported cls :
  find (pkg +:+ "." +:+ "hello_mcp_server") = Loaded m imported ->
  m !! "HelloWorldMCPServer" = Some cls ->
  exists ns,
    import_package find pkg ns0 = Ret ns
    /\ public_names ns = Some ["HelloWorldMCPServer"]
    /\ ns !! "__version__" = Some (PyStr "1.0.0")
    /\ ns !! "HelloWorldMCPServer" = Some cls
    /\ star_import ns = Some [("HelloWorldMCPServer", Some cls)].
Proof.
  intros Hf Hm. eexists. unfold import_package.
  rewrite (init_loaded find pkg ns0 m imported cls Hf Hm).
  split; [reflexivity |].
  assert (Hall : forall (ns : gmap string pyobj) v,
             public_names (<["__version__" := v]>
                (<["__all__" := PyStrList ["HelloWorldMCPServer"]]> ns))
             = Some ["HelloWorldMCPServer"]).
  { intros ns v. unfold public_names.
    rewrite lookup_insert_ne by done. now rewrite lookup_insert_eq. }
  assert (Hcls : forall (ns : gmap string pyobj) v1 v2,
             <["__version__" := v1]>
               (<["__all__" := v2]> (<["HelloWorldMCPServer" := cls]> ns))
               !! "HelloWorldMCPServer" = Some cls).
  { intros ns v1 v2. rewrite !lookup_insert_ne by done.
    now rewrite lookup_insert_eq. }
  split; [apply Hall |]. split; [now rewrite lookup_insert_eq |].
  split; [apply Hcls |].
  unfold star_import. rewrite Hall. cbn [map]. now rewrite Hcls.
Qed.

Lemma package_exports_witness :
  exists ns,
    import_package sample_finder "server" ∅ = Ret ns
    /\ public_names ns = Some ["HelloWorldMCPServer"]
    /\ ns !! "__version__" = Some (PyStr "1.0.0")
    /\ ns !! "HelloWorldMCPServer" = Some (PyClass "HelloWorldMCPServer")
    /\ star_import ns
       = Some [("HelloWorldMCPServer", Some (PyClass "HelloWorldMCPServer"))].
Proof.
  apply (package_exports sample_finder "server" ∅
           {[ "HelloWorldMCPServer" := PyClass "HelloWorldMCPServer" ]}
           no_siblings
           (PyClass "HelloWorldMCPServer")).
  - reflexivity.
  - reflexivity.
Defined.

(** C10: the import of [hello_mcp_server] is the first statement after the
    docstring; when that module is not there, importing the package
    raises [ModuleNotFoundError] (an [ImportError]), no module comes out,
    and the body stopped before it bound the class, [__all__] or
    [__version__]. *)
Theorem import_fails_without_server_module find pkg ns0 :
  find (pkg +:+ "." +:+ "hello_mcp_server") = NoSuchModule ->
  let e := ModuleNotFoundError (pkg +:+ "." +:+ "hello_mcp_server") in
  import_package find pkg ns0 = Raise e
  /\ is_ImportError e = true
  /\ (let ns := fst (init find pkg ns0) in
      ns !! "HelloWorldMCPServer" = ns0 !! "HelloWorldMCPServer"
      /\ ns !! "__all__" = ns0 !! "__all__"
      /\ ns !! "__version__" = ns0 !! "__version__").
Proof.
  intros Hf e.
  assert (Hinit : init find pkg ns0
                  = (<["__doc__" := PyStr docstring]> ns0, Raise e)).
  { unfold init, from_import, mbind, M_bind, bind, assign.
    rewrite Hf. reflexivity. }
  split; [| split; [reflexivity |]].
  - unfold import_package. rewrite Hinit. reflexivity.
  - rewrite Hinit. cbn [fst]. now rewrite !lookup_insert_ne.
Qed.

Lemma import_fails_without_server_module_witness :
  import_package (fun _ => NoSuchModule) "server" ∅
  = Raise (ModuleNotFoundError "server.hello_mcp_server").
Proof.
  exact (proj1 (import_fails_without_server_module
                  (fun _ => NoSuchModule) "server" ∅ eq_refl)).
Defined.

End Package.

(** * More on paths: shape and round trip *)

Section PathShape.
Import Pathlib.

Lemma split_no_sep (sep : ascii) (s : string) :
  PyStr.contains_char sep s = false -> PyStr.split sep s = [s].
Proof.
  induction s as [| c r IH]; [reflexivity |].
  cbn [PyStr.contains_char PyStr.split]. rewrite (Ascii.eqb_sym c sep).
  destruct (Ascii.eqb sep c); [discriminate |].
  intros H. now rewrite (IH H).
Qed.

Lemma split_pieces_no_sep (sep : ascii) (s : string) :
  Forall (fun x => PyStr.contains_char sep x = false) (PyStr.split sep s).
Proof.
  induction s as [| c r IH]; cbn [PyStr.split].
  - repeat constructor.
  - destruct (Ascii.eqb c sep) eqn:E.
    + constructor; [reflexivity | exact IH].
    + destruct (PyStr.split sep r) as [| x xs].
      * constructor; [| constructor]. cbn.
        now rewrite Ascii.eqb_sym, E.
      * inversion IH as [| ? ? Hx Hxs]; subst.
        constructor; [| exact Hxs]. cbn.
        now rewrite Ascii.eqb_sym, E.
Qed.

Lemma split_app_sep (sep : ascii) (x t : string) :
  PyStr.contains_char sep x = false ->
  PyStr.split sep (x +:+ String sep t) = x :: PyStr.split sep t.
Proof.
  induction x as [| c r IH].
  - intros _. change (EmptyString +:+ String sep t) with (String sep t).
    cbn [PyStr.split]. now rewrite Ascii.eqb_refl.
  - cbn [PyStr.contains_char]. destruct (Ascii.eqb sep c) eqn:E; [discriminate |].
    intros H. change (String c r +:+ String sep t)
      with (String c (r +:+ String sep t)).
    cbn [PyStr.split]. rewrite Ascii.eqb_sym, E, (IH H). reflexivity.
Qed.

Lemma good_part_inv (x : string) :
  good_part x = true ->
  keep_part x = true /\ PyStr.contains_char "/" x = false
  /\ exists c r, x = String c r /\ Ascii.eqb c "/" = false.
Proof.
  unfold good_part. intros H. apply andb_prop in H as [Hk Hn].
  apply negb_true_iff in Hn. repeat split; trivial.
  destruct x as [| c r]; [discriminate Hk |].
  exists c, r. split; [reflexivity |].
  cbn [PyStr.contains_char] in Hn. rewrite Ascii.eqb_sym.
  destruct (Ascii.eqb "/" c); [discriminate Hn | reflexivity].
Qed.

(** Splitting the joined components gives the components back. *)
Lemma split_join (l : list string) :
  l <> [] -> forallb good_part l = true ->
  PyStr.split "/" (PyStr.join "/" l) = l.
Proof.
  induction l as [| x l IH]; [congruence |]. intros _ H.
  cbn [forallb] in H. apply andb_prop in H as [Hx Hl].
  destruct (good_part_inv x Hx) as [_ [Hns _]].
  destruct l as [| y r].
  - cbn [PyStr.join]. now apply split_no_sep.
  - change (PyStr.join "/" (x :: y :: r))
      with (x +:+ String "/" (PyStr.join "/" (y :: r))).
    rewrite (split_app_sep _ _ _ Hns), IH; [reflexivity | discriminate | exact Hl].
Qed.

Lemma filter_keep_good (l : list string) :
  forallb good_part l = true -> List.filter keep_part l = l.
Proof.
  induction l as [| x l IH]; [reflexivity |]. cbn [forallb List.filter].
  intros H. apply andb_prop in H as [Hx Hl].
  destruct (good_part_inv x Hx) as [-> _]. now rewrite (IH Hl).
Qed.

(** The joined text of good components starts with a character that is
    not a slash. *)
Lemma join_head (x : string) (l : list string) :
  good_part x = true ->
  exists c r, PyStr.join "/" (x :: l) = String c r /\ Ascii.eqb c "/" = false.
Proof.
  intros Hx. destruct (good_part_inv x Hx) as [_ [_ [c [r [-> Hc]]]]].
  destruct l as [| y l']; [exists c, r; split; [reflexivity | exact Hc] |].
  exists c, (r +:+ String "/" (PyStr.join "/" (y :: l'))).
  split; [reflexivity | exact Hc].
Qed.

Lemma splitroot_relative (c : ascii) (r : string) :
  Ascii.eqb c "/" = false ->
  splitroot (String c r) = (EmptyString, String c r).
Proof. intros H. unfold splitroot. now rewrite H. Qed.

Lemma splitroot_one_slash (c : ascii) (r : string) :
  Ascii.eqb c "/" = false ->
  splitroot (String "/" (String c r)) = ("/", String c r).
Proof.
  intros H. destruct c as [[] [] [] [] [] [] [] []];
    solve [reflexivity | discriminate H].
Qed.

Lemma splitroot_two_slashes (c : ascii) (r : string) :
  Ascii.eqb c "/" = false ->
  splitroot (String "/" (String "/" (String c r))) = ("//", String c r).
Proof.
  intros H. destruct c as [[] [] [] [] [] [] [] []];
    solve [reflexivity | discriminate H].
Qed.

(** Parsing never leaves a bad root or a bad component. *)
Lemma parse_wf (s : string) : wf (parse s) = true.
Proof.
  unfold wf. apply andb_true_intro. split.
  - rewrite parse_root.
    destruct (splitroot_root s) as [-> | [-> | ->]]; reflexivity.
  - unfold parse. destruct (splitroot s) as [rt rel]. cbn [tail].
    pose proof (split_pieces_no_sep "/" rel) as Hall.
    induction Hall as [| x l Hx _ IH]; [reflexivity |].
    cbn [List.filter]. destruct (keep_part x) eqn:Hk; [| exact IH].
    cbn [forallb]. unfold good_part at 1. now rewrite Hk, Hx, IH.
Qed.

Lemma forallb_removelast (l : list string) :
  forallb good_part l = true -> forallb good_part (removelast l) = true.
Proof.
  induction l as [| x l IH]; [reflexivity |].
  cbn [forallb]. intros H. apply andb_prop in H as [Hx Hl].
  destruct l as [| y r]; [reflexivity |].
  change (removelast (x :: y :: r)) with (x :: removelast (y :: r)).
  cbn [forallb]. now rewrite Hx, (IH Hl).
Qed.

Lemma parent_wf (p : Path) : wf p = true -> wf (parent p) = true.
Proof.
  unfold wf, parent. intros H. apply andb_prop in H as [Hr Ht].
  destruct (tail p) as [| x l] eqn:E.
  - now rewrite Hr, E.
  - cbn [root tail]. rewrite Hr. now apply forallb_removelast.
Qed.

Lemma wf_snoc (rt : string) (l : list string) (x : string) :
  wf (mkPath rt l) = true -> good_part x = true ->
  wf (mkPath rt (l ++ [x])) = true.
Proof.
  unfold wf. cbn [root tail]. intros H Hx.
  apply andb_prop in H as [Hr Ht]. rewrite Hr, forallb_app, Ht.
  cbn [forallb]. now rewrite Hx.
Qed.

(** [Path(str(p)) == p] for every path of the parsed shape. *)
Lemma parse_str (p : Path) : wf p = true -> parse (str p) = p.
Proof.
  destruct p as [rt l]. unfold wf. cbn [root tail]. intros H.
  apply andb_prop in H as [Hr Hl].
  assert (Hrt : rt = EmptyString \/ rt = "/" \/ rt = "//").
  { apply orb_prop in Hr as [Hr | Hr];
      [apply orb_prop in Hr as [Hr | Hr] |];
      apply String.eqb_eq in Hr; auto. }
  destruct l as [| x l'].
  - destruct Hrt as [-> | [-> | ->]]; reflexivity.
  - assert (Hx : good_part x = true)
      by (cbn [forallb] in Hl; now apply andb_prop in Hl as [Hx _]).
    destruct (join_head x l' Hx) as [c [r [Hj Hc]]].
    assert (Hparts : List.filter keep_part (PyStr.split "/" (String c r))
                     = x :: l').
    { rewrite <- Hj, split_join; [now apply filter_keep_good | discriminate
                                 | exact Hl]. }
    unfold str, parse. cbn [root tail]. rewrite Hj.
    destruct Hrt as [-> | [-> | ->]].
    + change (EmptyString +:+ String c r) with (String c r).
      cbn [String.eqb]. rewrite (splitroot_relative c r Hc).
      now rewrite Hparts.
    + change ("/" +:+ String c r) with (String "/" (String c r)).
      change (String.eqb (String "/" (String c r)) EmptyString) with false.
      cbv iota. rewrite (splitroot_one_slash c r Hc). now rewrite Hparts.
    + change ("//" +:+ String c r)
        with (String "/" (String "/" (String c r))).
      change (String.eqb (String "/" (String "/" (String c r))) EmptyString)
        with false.
      cbv iota. rewrite (splitroot_two_slashes c r Hc). now rewrite Hparts.
Qed.

End PathShape.

(** * More on the launcher *)

Section LauncherExtras.
Import Py RunServer.

Implicit Types (w : World) (tr : list event).



(** X2: The calls of [subprocess.run] in a run: exactly one, with [command w],
    when the script was found, and none otherwise. *)
Theorem spawns_exactly_when_found w :
  List.filter is_spawn (output w)
  = match script_lookup w with
    | Present => [SubprocessRun (command w)]
    | _ => []
    end.
Proof.
  unfold output. rewrite launcher_paths.
  assert (Hr : forall before text code,
             List.filter is_spawn (fst (report_and_exit w before text code))
             = List.filter is_spawn before).
  { intros before text code.
    destruct (report_events w before text code) as [diag [-> [_ Hd]]].
    now rewrite List.filter_app, Hd, app_nil_r. }
  destruct (script_lookup w); [| now rewrite Hr | reflexivity].
  destruct (child_outcome w) as [rc | cs | e]; [destruct (rc =? 0) | |];
    first [ now rewrite Hr | reflexivity ].
Qed.




(** X5: [main] returns to its caller exactly when the script was found and
    the child ended with return code 0: on every other path it raises,
    whatever standard output does. *)
Theorem main_returns_only_on_success w tr :
  (exists tr', main w tr = (tr', Ret tt))
  <-> script_lookup w = Present /\ child_outcome w = Terminated 0.
Proof.
  rewrite main_paths.
  assert (Hp : forall text code t tr',
             (print w text ;; sys_exit code : IO unit) t <> (tr', Ret tt)).
  { intros text code t tr'. rewrite print_then_exit.
    destruct (stdout_print w text); discriminate. }
  destruct (script_lookup w).
  - destruct (child_outcome w) as [rc | cs | e]; cbn zeta.
    + destruct (Z.eqb_spec rc 0) as [-> | Hrc].
      * split; eauto.
      * split; [intros [tr' H]; now apply Hp in H
               | intros [_ [= ?]]; contradiction].
    + split; [intros [tr' H]; now apply Hp in H | intros [_ [=]]].
    + split; [intros [? [=]] | intros [_ [=]]].
  - split; [intros [tr' H]; now apply Hp in H | intros [[=] _]].
  - split; [intros [? [=]] | intros [[=] _]].
Qed.

(** X6: Without arguments after the program name (and even with an empty
    [sys.argv]) the slice is empty and the command is the interpreter and
    the script alone. *)
Theorem command_without_arguments w :
  (length (sys_argv w) <= 1)%nat ->
  command w = [sys_executable w; Pathlib.str (server_script w)].
Proof.
  unfold command. destruct (sys_argv w) as [| prog [| a A]]; cbn.
  - reflexivity.
  - reflexivity.
  - lia.
Qed.

Lemma command_without_arguments_witness :
  let w := mkWorld "/opt/fact/src/run_server.py" "/usr/bin/python3" []
                   "/home/user" (fun _ _ => Present)
                   (fun _ _ => Terminated 0) (fun _ => None)
                   (fun _ => Written) None (fun s => s) in
  command w
  = ["/usr/bin/python3"; "/opt/fact/src/server/hello_mcp_server.py"].
Proof.
  apply (command_without_arguments
           (mkWorld "/opt/fact/src/run_server.py" "/usr/bin/python3" []
                    "/home/user" (fun _ _ => Present)
                    (fun _ _ => Terminated 0) (fun _ => None)
                    (fun _ => Written) None (fun s => s))).
  cbn. lia.
Defined.

(** X7: When the file is imported instead of run, [main] is not called:
    nothing is looked up, printed or spawned. *)
Theorem import_has_no_effect name__ w tr :
  name__ <> "__main__" ->
  module_body name__ w tr = (tr, Ret tt)
  /\ interpreter w (module_body name__ w) = ([], 0).
Proof.
  intros H. apply String.eqb_neq in H.
  unfold interpreter, module_body. rewrite H. split; [reflexivity |].
  cbn. destruct (exit_flush w); reflexivity.
Qed.

Lemma import_has_no_effect_witness :
  interpreter
    (sample_world Missing (Terminated 3))
    (module_body "run_server" (sample_world Missing (Terminated 3)))
  = ([], 0).
Proof.
  refine (proj2 (import_has_no_effect
                   "run_server" (sample_world Missing (Terminated 3)) [] _)).
  discriminate.
Defined.

(** X8: For every return code a POSIX child can have (an exit status 1 to
    255, or minus a signal number), the status of the launcher is not 0,
    whatever standard output does with the message: a failure of the
    child never turns into a success of the launcher.  When standard
    output shows the message, the status is [N] for an exit status [N]
    and [256 + N] for a negative return code [N]. *)
Theorem child_failure_never_reads_as_success w N :
  script_lookup w = Present ->
  child_outcome w = Terminated N ->
  N <> 0 -> -256 < N < 256 ->
  exit_status w <> 0
  /\ (stdout_shows w ("Error running server: "
                        +:+ str_CalledProcessError w N (command w)) = true ->
      (0 < N -> exit_status w = N)
      /\ (N < 0 -> exit_status w = 256 + N)).
Proof.
  intros H1 H2 HN Hr. unfold exit_status.
  rewrite launcher_paths, H1, H2.
  destruct (Z.eqb_spec N 0) as [-> | _]; [lia |].
  assert (Hn : narrow N <> 0).
  { unfold narrow. intros H0. apply Z.mod_divide in H0; [| lia].
    destruct H0 as [k Hk]. lia. }
  split.
  - unfold report_and_exit.
    destruct (stdout_print w _); [| destruct (exit_flush w) | |];
      cbn [snd]; first [ exact Hn | discriminate ].
  - intros Hs. unfold run_error_message.
    rewrite (report_shown w _ _ N Hs). cbn [snd]. unfold narrow. split.
    + intros Hpos. apply Z.mod_small. lia.
    + intros Hneg. symmetry.
      apply (Z.mod_unique N 256 (-1) (256 + N)); lia.
Qed.

Lemma child_failure_never_reads_as_success_witness :
  let w := sample_world Present (Terminated (-15)) in
  exit_status w <> 0
  /\ exit_status w = 256 + -15.
Proof.
  pose proof (child_failure_never_reads_as_success
                (sample_world Present (Terminated (-15))) (-15)
                eq_refl eq_refl ltac:(lia) ltac:(lia)) as [Ha Hb].
  split; [exact Ha |].
  exact (proj2 (Hb eq_refl) ltac:(lia)).
Defined.

End LauncherExtras.

(** * More on where the script is looked for *)

Section ScriptPath.
Import Py RunServer.

Implicit Types (w : World).

Lemma removelast_snoc (l : list string) (x : string) :
  removelast (l ++ [x]) = l.
Proof.
  induction l as [| y l IH]; [reflexivity |].
  change ((y :: l) ++ [x]) with (y :: (l ++ [x])).
  destruct (l ++ [x]) as [| z r] eqn:E; [destruct l; discriminate |].
  change (removelast (y :: z :: r)) with (y :: removelast (z :: r)).
  now rewrite IH.
Qed.

Lemma server_script_parts w :
  server_script w
  = Pathlib.mkPath
      (Pathlib.root (Pathlib.parent (Pathlib.parse (file__ w))))
      (Pathlib.tail (Pathlib.parent (Pathlib.parse (file__ w)))
         ++ ["server"; "hello_mcp_server.py"]).
Proof.
  unfold server_script. rewrite truediv_hello, truediv_server.
  cbn [Pathlib.root Pathlib.tail]. now rewrite <- app_assoc.
Qed.

(** X9: The text of the script path, given to [exists()] and to the child,
    parses back to the script path: no component of it is empty, a dot,
    or holds a slash, whatever [__file__] is. *)
Theorem script_path_round_trip w :
  Pathlib.wf (server_script w) = true
  /\ Pathlib.parse (Pathlib.str (server_script w)) = server_script w.
Proof.
  assert (Hwf : Pathlib.wf (server_script w) = true).
  { rewrite server_script_parts.
    change (?l ++ ["server"; "hello_mcp_server.py"])
      with (l ++ ["server"] ++ ["hello_mcp_server.py"]).
    rewrite app_assoc.
    apply wf_snoc; [apply wf_snoc |]; try reflexivity.
    pose proof (parent_wf _ (parse_wf (file__ w))) as H.
    now destruct (Pathlib.parent (Pathlib.parse (file__ w))). }
  split; [exact Hwf | now apply parse_str].
Qed.

(** X10: The script is looked for beside the launcher: the launcher's own file
    name is dropped, so two launcher files in the same directory resolve
    the same script, in that directory's [server] subdirectory. *)
Theorem script_is_sibling_of_launcher w1 w2 rt dir n1 n2 :
  Pathlib.parse (file__ w1) = Pathlib.mkPath rt (dir ++ [n1]) ->
  Pathlib.parse (file__ w2) = Pathlib.mkPath rt (dir ++ [n2]) ->
  server_script w1
  = Pathlib.mkPath rt (dir ++ ["server"; "hello_mcp_server.py"])
  /\ server_script w1 = server_script w2.
Proof.
  assert (H : forall w n,
             Pathlib.parse (file__ w) = Pathlib.mkPath rt (dir ++ [n]) ->
             server_script w
             = Pathlib.mkPath rt (dir ++ ["server"; "hello_mcp_server.py"])).
  { intros w n Hp. rewrite server_script_parts, Hp. unfold Pathlib.parent.
    cbn [Pathlib.tail Pathlib.root].
    destruct (dir ++ [n]) as [| y r] eqn:E; [destruct dir; discriminate |].
    cbn [Pathlib.tail Pathlib.root]. now rewrite <- E, removelast_snoc. }
  intros H1 H2. split; [now apply (H w1 n1) |].
  now rewrite (H w1 n1 H1), (H w2 n2 H2).
Qed.

Lemma script_is_sibling_of_launcher_witness :
  let w1 := sample_world Present (Terminated 0) in
  let w2 := mkWorld "/opt/fact/src/other_name.py" "/usr/bin/python3" []
                    "/tmp" (fun _ _ => Missing) (fun _ _ => Terminated 1)
                    (fun _ => None) (fun _ => Written) None (fun s => s) in
  server_script w1
  = Pathlib.mkPath "/" ["opt"; "fact"; "src"; "server"; "hello_mcp_server.py"]
  /\ server_script w1 = server_script w2.
Proof.
  exact (script_is_sibling_of_launcher
           (sample_world Present (Terminated 0))
           (mkWorld "/opt/fact/src/other_name.py" "/usr/bin/python3" []
                    "/tmp" (fun _ _ => Missing) (fun _ _ => Terminated 1)
                    (fun _ => None) (fun _ => Written) None (fun s => s))
           "/" ["opt"; "fact"; "src"] "run_server.py" "other_name.py"
           eq_refl eq_refl).
Defined.

(** X11: The launcher never makes the path absolute: the script path is
    absolute exactly when the text of [__file__] starts with a slash. *)
Theorem script_absolute_iff w :
  Pathlib.is_absolute (server_script w) = true
  <-> exists r, file__ w = String "/" r.
Proof.
  rewrite server_script_parts. unfold Pathlib.is_absolute.
  cbn [Pathlib.root]. rewrite parent_root, parse_root.
  destruct (file__ w) as [| c0 r1]; cbn [Pathlib.splitroot].
  - split; [discriminate | intros [r [=]]].
  - destruct (Ascii.eqb_spec c0 "/") as [-> | Hne]; cbn [negb].
    + split; [eauto |]. intros _.
      destruct (splitroot_root (String "/" r1)) as [H | [H | H]];
        cbn [Pathlib.splitroot Ascii.eqb Bool.eqb negb] in H.
      * exfalso. revert H.
        destruct r1 as [| c1 r2]; [discriminate |].
        destruct c1 as [[] [] [] [] [] [] [] []]; try discriminate.
        destruct r2 as [| c2 r3]; [discriminate |].
        destruct c2 as [[] [] [] [] [] [] [] []]; discriminate.
      * now rewrite H.
      * now rewrite H.
    + split; [discriminate |]. intros [r [= -> _]]. contradiction.
Qed.

(** X12: When [__file__] is a bare file name (no slash in it), the script path
    is the relative [server/hello_mcp_server.py], and the file system is
    asked for it relative to the working directory. *)
Theorem bare_file_name_resolves_in_cwd w :
  PyStr.contains_char "/" (file__ w) = false ->
  Pathlib.str (server_script w) = "server/hello_mcp_server.py"
  /\ Pathlib.is_absolute (server_script w) = false
  /\ script_lookup w = fs_exists w (cwd w) "server/hello_mcp_server.py".
Proof.
  intros H.
  assert (Hs : server_script w
               = Pathlib.mkPath EmptyString ["server"; "hello_mcp_server.py"]).
  { rewrite server_script_parts.
    assert (Hp : exists l, Pathlib.parse (file__ w)
                           = Pathlib.mkPath EmptyString l
                           /\ (length l <= 1)%nat).
    { unfold Pathlib.parse.
      assert (Hr : Pathlib.splitroot (file__ w) = (EmptyString, file__ w)).
      { destruct (file__ w) as [| c r]; [reflexivity |].
        apply splitroot_relative. cbn [PyStr.contains_char] in H.
        rewrite Ascii.eqb_sym.
        destruct (Ascii.eqb "/" c); [discriminate H | reflexivity]. }
      rewrite Hr, (split_no_sep _ _ H). cbn [List.filter].
      destruct (Pathlib.keep_part (file__ w)); eexists; split;
        try reflexivity; cbn; lia. }
    destruct Hp as [l [-> Hl]]. unfold Pathlib.parent.
    cbn [Pathlib.tail Pathlib.root].
    destruct l as [| x [| y l']]; [reflexivity | reflexivity | cbn in Hl; lia]. }
  unfold script_lookup. rewrite Hs. repeat split; reflexivity.
Qed.

Lemma bare_file_name_resolves_in_cwd_witness :
  let w := mkWorld "run_server.py" "/usr/bin/python3" ["run_server.py"]
                   "/opt/fact/src" (fun _ _ => Present)
                   (fun _ _ => Terminated 0) (fun _ => None) (fun _ => Written) None (fun s => s) in
  command w = ["/usr/bin/python3"; "server/hello_mcp_server.py"]
  /\ Pathlib.str (server_script w) = "server/hello_mcp_server.py".
Proof.
  split; [reflexivity |].
  exact (proj1 (bare_file_name_resolves_in_cwd
                  (mkWorld "run_server.py" "/usr/bin/python3"
                           ["run_server.py"] "/opt/fact/src"
                           (fun _ _ => Present) (fun _ _ => Terminated 0)
                           (fun _ => None) (fun _ => Written) None (fun s => s))
                  eq_refl)).
Defined.

End ScriptPath.

(** * More on the package initializer *)

Section PackageExtras.
Import Py ServerInit.

Implicit Types (ns : gmap string pyobj) (find : string -> module_load).

(** A successful import determines what was found and what was bound. *)
Lemma import_ret_inv find pkg ns0 ns :
  import_package find pkg ns0 = Ret ns ->
  exists m imported cls,
    find (pkg +:+ "." +:+ "hello_mcp_server") = Loaded m imported
    /\ m !! "HelloWorldMCPServer" = Some cls
    /\ ns = <["__version__" := PyStr "1.0.0"]>
              (<["__all__" := PyStrList ["HelloWorldMCPServer"]]>
                 (<["HelloWorldMCPServer" := cls]>
                    (<["hello_mcp_server" :=
                         PyModule (pkg +:+ "." +:+ "hello_mcp_server")]>
                       (fst (bind_modules pkg (sibling_modules imported)
                               (<["__doc__" := PyStr docstring]> ns0)))))).
Proof.
  intros H.
  destruct (find (pkg +:+ "." +:+ "hello_mcp_server"))
    as [| e imported | m imported] eqn:Hf.
  - revert H.
    unfold import_package, init, from_import, mbind, M_bind, bind, assign.
    rewrite Hf. discriminate.
  - revert H.
    unfold import_package, init, from_import, mbind, M_bind, bind, assign.
    rewrite Hf. discriminate.
  - destruct (m !! "HelloWorldMCPServer") as [cls |] eqn:Hm.
    + unfold import_package in H.
      rewrite (init_loaded find pkg ns0 m imported cls Hf Hm) in H.
      injection H as <-. exists m, imported, cls. auto.
    + revert H.
      unfold import_package, init, from_import, mbind, M_bind, bind, assign.
      rewrite Hf. cbn [bind_modules fst]. rewrite Hm. discriminate.
Qed.

(** X13: The import of the package succeeds exactly when the
    [hello_mcp_server] module loads and defines [HelloWorldMCPServer]. *)
Theorem import_succeeds_iff find pkg ns0 :
  (exists ns, import_package find pkg ns0 = Ret ns)
  <-> exists m imported cls,
        find (pkg +:+ "." +:+ "hello_mcp_server") = Loaded m imported
        /\ m !! "HelloWorldMCPServer" = Some cls.
Proof.
  split.
  - intros [ns H].
    destruct (import_ret_inv _ _ _ _ H) as [m [imported [cls [? [? _]]]]].
    eauto.
  - intros [m [imported [cls [Hf Hm]]]]. unfold import_package.
    rewrite (init_loaded find pkg ns0 m imported cls Hf Hm). eauto.
Qed.







(** X17: Running the body again in the namespace it produced (a reload, with
    the same module found) changes nothing. *)
Theorem reload_changes_nothing find pkg ns0 ns :
  import_package find pkg ns0 = Ret ns ->
  init find pkg ns = (ns, Ret tt).
Proof.
  intros H.
  destruct (import_ret_inv _ _ _ _ H) as [m [imported [cls [Hf [Hm Hns]]]]].
  rewrite (init_loaded find pkg _ m imported cls Hf Hm). f_equal.
  apply map_eq. intros k. rewrite Hns at 2.
  rewrite !lookup_insert. repeat case_decide; try reflexivity.
  destruct (decide (k ∈ sibling_modules imported)) as [Hin | Hout].
  - now rewrite !bind_modules_lookup_in.
  - rewrite !bind_modules_lookup_out by exact Hout.
    rewrite !lookup_insert. case_decide; [reflexivity |].
    rewrite Hns. rewrite !lookup_insert_ne by done.
    rewrite bind_modules_lookup_out by exact Hout.
    now rewrite lookup_insert_ne.
Qed.

Lemma reload_changes_nothing_witness :
  exists ns,
    import_package sample_finder "server" ∅ = Ret ns
    /\ init sample_finder "server" ns = (ns, Ret tt).
Proof.
  eexists. split; [reflexivity |].
  exact (reload_changes_nothing sample_finder "server" ∅ _ eq_refl).
Defined.

End PackageExtras.
